(** * Bloodwork extractor: the PDF-to-note pipeline of [api.py] and
      [bloodwork_app.py], embedded and checked against its specification.

    The two source files each carry their own [BloodworkExtractor] class
    (text extraction with PyMuPDF, a prompt sent to the chat-completion
    service, a result dictionary) and one entry surface: the FastAPI
    handler [process_pdf] and the Streamlit script [main].

    Python strings are modelled as [string] holding the UTF-8 bytes of the
    text.  Effects (the file system, PyMuPDF handles, the model service,
    the clock, Streamlit widgets) go through a state-and-exception monad
    [Py]; every call to a collaborator is recorded in a chronological
    trace. *)

From Stdlib Require Import Ascii String DecimalString QArith.
From stdpp Require Import gmap strings list fin_maps.

(* ===================================================================== *)
(** ** Python values *)
(* ===================================================================== *)

(** Exceptions.  All of them derive from [Exception]; [Exc cls msg] is an
    exception of class [cls] whose [str] is [msg]. *)
Inductive PyExc : Type :=
  | Exc (cls msg : string)
  | HTTPException (status_code : nat) (detail : string).

(** The result of running a piece of Python: a value or a raised
    exception. *)
Inductive outcome (A : Type) : Type :=
  | Ret (a : A)
  | Raise (e : PyExc).
Arguments Ret {A} a.
Arguments Raise {A} e.

Definition nl : string := String (ascii_of_nat 10) EmptyString.
Definition dq : string := String (ascii_of_nat 34) EmptyString.

Definition digits (n : nat) : string :=
  NilZero.string_of_uint (Nat.to_uint n).

(** [str(e)].  Starlette's [HTTPException.__str__] is
    [f"{status_code}: {detail}"]. *)
Definition str (e : PyExc) : string :=
  match e with
  | Exc _ msg => msg
  | HTTPException code detail => digits code +:+ ": " +:+ detail
  end.

(** Truthiness of a string ([if s:] / [not s]). *)
Definition truthy (s : string) : bool :=
  match s with
  | EmptyString => false
  | String _ _ => true
  end.

(** Truthiness of the result of [dict.get], which may be [None]. *)
Definition truthy_opt (o : option string) : bool :=
  match o with
  | Some s => truthy s
  | None => false
  end.

(** *** [str.strip()]

    Python strips the code points for which [str.isspace] holds:
    U+0009..U+000D, U+001C..U+0020, U+0085, U+00A0, U+1680,
    U+2000..U+200A, U+2028, U+2029, U+202F, U+205F and U+3000.  On UTF-8
    bytes these are one-, two- and three-byte sequences. *)
Definition byte_in (lo hi : nat) (c : ascii) : bool :=
  (lo <=? nat_of_ascii c) && (nat_of_ascii c <=? hi).

Definition space1 (c : ascii) : bool :=
  byte_in 9 13 c || byte_in 28 32 c.

Definition space2 (c d : ascii) : bool :=
  byte_in 194 194 c && (byte_in 133 133 d || byte_in 160 160 d).

Definition space3 (c d e : ascii) : bool :=
  (byte_in 225 225 c && byte_in 154 154 d && byte_in 128 128 e)
  || (byte_in 226 226 c && byte_in 128 128 d
      && (byte_in 128 138 e || byte_in 168 169 e || byte_in 175 175 e))
  || (byte_in 226 226 c && byte_in 129 129 d && byte_in 159 159 e)
  || (byte_in 227 227 c && byte_in 128 128 d && byte_in 128 128 e).

(** Drop leading white space; [w2] and [w3] receive the bytes in the order
    they are met, so that the same loop serves the reversed string. *)
Fixpoint drop_space (w2 : ascii -> ascii -> bool)
    (w3 : ascii -> ascii -> ascii -> bool) (s : string) : string :=
  match s with
  | EmptyString => s
  | String c s1 =>
      if space1 c then drop_space w2 w3 s1
      else
        match s1 with
        | EmptyString => s
        | String d s2 =>
            if w2 c d then drop_space w2 w3 s2
            else
              match s2 with
              | EmptyString => s
              | String e s3 =>
                  if w3 c d e then drop_space w2 w3 s3 else s
              end
        end
  end.

Definition rev_string (s : string) : string :=
  string_of_list_ascii (rev (list_ascii_of_string s)).

Definition lstrip (s : string) : string := drop_space space2 space3 s.

Definition rstrip (s : string) : string :=
  rev_string
    (drop_space (fun c d => space2 d c) (fun c d e => space3 e d c)
       (rev_string s)).

Definition strip (s : string) : string := rstrip (lstrip s).

(** *** [datetime] and [strftime("%Y-%m-%d %H:%M:%S")] (years of four
    digits, as the clock gives them) *)
Record DateTime : Type := {
  year : nat; month : nat; day : nat;
  hour : nat; minute : nat; second : nat
}.

Fixpoint zeros (n : nat) : string :=
  match n with
  | O => EmptyString
  | S k => String (ascii_of_nat 48) (zeros k)
  end.

(** Zero-padded decimal of width at least [w] ([%Y] pads to four digits,
    the other fields to two). *)
Definition zfill (w n : nat) : string :=
  zeros (w - String.length (digits n)) +:+ digits n.

Definition strftime (t : DateTime) : string :=
  zfill 4 (year t) +:+ "-" +:+ zfill 2 (month t) +:+ "-" +:+ zfill 2 (day t)
  +:+ " " +:+ zfill 2 (hour t) +:+ ":" +:+ zfill 2 (minute t)
  +:+ ":" +:+ zfill 2 (second t).

(** A Python [Dict[str, str]]: keys in insertion order. *)
Definition PyDict : Type := list (string * string).

Fixpoint dict_get (k : string) (d : PyDict) : option string :=
  match d with
  | [] => None
  | (k', v) :: rest => if String.eqb k k' then Some v else dict_get k rest
  end.

(* ===================================================================== *)
(** ** Collaborators: PyMuPDF, the model service, the clock, the disk *)
(* ===================================================================== *)

(** The arguments of [client.chat.completions.create]: [messages] are
    (role, content) pairs; [temperature] is the literal [0.1]. *)
Record ChatRequest : Type := {
  model : string;
  messages : list (string * string);
  temperature : Q
}.

(** [OpenAI(api_key=...)]. *)
Record Client : Type := { client_api_key : string }.

(** An [UploadFile] (FastAPI) or an uploaded file (Streamlit). *)
Record Upload : Type := { filename : string; content : string }.

(** Calls made on Streamlit; long static help texts are not carried. *)
Inductive StCall : Type :=
  | StSetPageConfig
  | StTitle (text : string)
  | StMarkdown
  | StSuccess (text : string)
  | StWarning (text : string)
  | StError (text : string)
  | StTextInput (label value : string)
  | StFileUploader (label : string)
  | StButton (label : string)
  | StSpinner (text : string)
  | StSubheader (text : string)
  | StTextArea (label value : string)
  | StExpander (label : string)
  | StSidebar.

(** One entry per call that reaches a collaborator, in program order. *)
Inductive Event : Type :=
  | EvEnvironGet (name : string)
  | EvFileWrite (path : string)
  | EvPathExists (path : string)
  | EvFileRemove (path : string)
  | EvFitzOpen (path : string)
  | EvGetText (doc page : nat)
  | EvDocClose (doc : nat)
  | EvChatCreate (req : ChatRequest)
  | EvNow
  | EvSt (c : StCall).

(** What the program cannot decide: the environment variables, what
    PyMuPDF makes of a file's bytes (it fails to open them, or gives pages
    whose [get_text] returns a text or fails), what the model service
    answers to its [n]-th call (it fails, or gives the [content] of each
    choice, possibly [None]), what the clock shows after [n] events,
    whether opening a path for writing and writing the data fails (a name
    with a slash into a missing directory, a NUL byte, a name too long, no
    permission, a full disk), and what the person at the Streamlit page
    typed, uploaded and pressed. *)
Record World : Type := {
  environ : gmap string string;
  pdf_parse : string -> outcome (list (outcome string));
  chat_create : nat -> string -> ChatRequest -> outcome (list (option string));
  clock : nat -> DateTime;
  write_error : string -> string -> option PyExc;
  text_input_value : string -> string;
  uploaded_file : option Upload;
  button_pressed : bool
}.

Record State : Type := {
  fs : gmap string string;
  open_docs : gset nat;
  next_doc : nat;
  llm_calls : nat;
  session_state : gmap string string;
  trace : list Event
}.

Definition set_fs (f : gmap string string -> gmap string string) (s : State)
    : State :=
  {| fs := f (fs s); open_docs := open_docs s; next_doc := next_doc s;
     llm_calls := llm_calls s; session_state := session_state s;
     trace := trace s |}.

Definition set_docs (f : gset nat -> gset nat) (n : nat) (s : State) : State :=
  {| fs := fs s; open_docs := f (open_docs s); next_doc := n;
     llm_calls := llm_calls s; session_state := session_state s;
     trace := trace s |}.

Definition count_llm_call (s : State) : State :=
  {| fs := fs s; open_docs := open_docs s; next_doc := next_doc s;
     llm_calls := S (llm_calls s); session_state := session_state s;
     trace := trace s |}.

Definition set_session (f : gmap string string -> gmap string string)
    (s : State) : State :=
  {| fs := fs s; open_docs := open_docs s; next_doc := next_doc s;
     llm_calls := llm_calls s; session_state := f (session_state s);
     trace := trace s |}.

Definition log (e : Event) (s : State) : State :=
  {| fs := fs s; open_docs := open_docs s; next_doc := next_doc s;
     llm_calls := llm_calls s; session_state := session_state s;
     trace := trace s ++ [e] |}.

(** *** The monad of Python code *)
Definition Py (A : Type) : Type := World -> State -> outcome A * State.

Definition ret {A : Type} (a : A) : Py A := fun _ s => (Ret a, s).

Definition raise {A : Type} (e : PyExc) : Py A := fun _ s => (Raise e, s).

Definition bind {A B : Type} (m : Py A) (k : A -> Py B) : Py B :=
  fun w s =>
    match m w s with
    | (Ret a, s1) => k a w s1
    | (Raise e, s1) => (Raise e, s1)
    end.

Notation "x <- m ;; k" := (bind m (fun x => k))
  (at level 100, m at next level, right associativity).
Notation "m ;; k" := (bind m (fun _ => k))
  (at level 100, right associativity).

(** [try: m  except Exception as e: h e]. *)
Definition try_except {A : Type} (m : Py A) (h : PyExc -> Py A) : Py A :=
  fun w s =>
    match m w s with
    | (Ret a, s1) => (Ret a, s1)
    | (Raise e, s1) => h e w s1
    end.

(** [try: m  finally: f]; an exception raised by [f] replaces the outcome
    of [m]. *)
Definition try_finally {A : Type} (m : Py A) (f : Py unit) : Py A :=
  fun w s =>
    match m w s with
    | (r, s1) =>
        match f w s1 with
        | (Ret _, s2) => (r, s2)
        | (Raise e, s2) => (Raise e, s2)
        end
    end.

(** [for x in xs: acc = body x acc]. *)
Fixpoint for_each {A S : Type} (xs : list A) (body : A -> S -> Py S) (acc : S)
    : Py S :=
  match xs with
  | [] => ret acc
  | x :: rest => acc' <- body x acc ;; for_each rest body acc'
  end.

Definition emit (e : Event) : Py unit := fun _ s => (Ret tt, log e s).

(** *** Primitive calls *)

(** [os.environ.get(name)]. *)
Definition os_environ_get (name : string) : Py (option string) :=
  fun w s => (Ret (environ w !! name), log (EvEnvironGet name) s).

(** [with open(path, "wb") as f: f.write(data)]: the file holds [data]
    afterwards, or the error of opening or writing is raised and the disk
    is as before. *)
Definition write_file (path data : string) : Py unit :=
  fun w s =>
    let s1 := log (EvFileWrite path) s in
    match write_error w path data with
    | Some e => (Raise e, s1)
    | None => (Ret tt, set_fs (insert path data) s1)
    end.

(** [os.path.exists(path)]. *)
Definition os_path_exists (path : string) : Py bool :=
  fun _ s => (Ret (bool_decide (is_Some (fs s !! path))),
              log (EvPathExists path) s).

(** [os.remove(path)]. *)
Definition os_remove (path : string) : Py unit :=
  fun _ s =>
    let s1 := log (EvFileRemove path) s in
    match fs s !! path with
    | Some _ => (Ret tt, set_fs (delete path) s1)
    | None =>
        (Raise (Exc "FileNotFoundError"
                  ("[Errno 2] No such file or directory: '" +:+ path +:+ "'")),
         s1)
    end.

(** A page of an open document. *)
Record Page : Type := {
  page_doc : nat;
  page_number : nat;
  page_text : outcome string
}.

(** An open document: its handle and its pages in document order. *)
Record Document : Type := { doc_handle : nat; doc_pages : list Page }.

(** The pages of document [h], numbered from [i] on. *)
Fixpoint number_pages (h i : nat) (texts : list (outcome string)) : list Page :=
  match texts with
  | [] => []
  | t :: rest =>
      {| page_doc := h; page_number := i; page_text := t |}
      :: number_pages h (S i) rest
  end.

(** [fitz.open(path)]: a fresh handle is open from here on. *)
Definition fitz_open (path : string) : Py Document :=
  fun w s =>
    let s1 := log (EvFitzOpen path) s in
    match fs s !! path with
    | None =>
        (Raise (Exc "FileNotFoundError" ("no such file: '" +:+ path +:+ "'")),
         s1)
    | Some bytes =>
        match pdf_parse w bytes with
        | Raise e => (Raise e, s1)
        | Ret texts =>
            let h := next_doc s in
            (Ret {| doc_handle := h; doc_pages := number_pages h 0 texts |},
             set_docs (union {[h]}) (S h) s1)
        end
    end.

(** [page.get_text()]. *)
Definition get_text (p : Page) : Py string :=
  fun _ s => (page_text p, log (EvGetText (page_doc p) (page_number p)) s).

(** [doc.close()]. *)
Definition doc_close (d : Document) : Py unit :=
  fun _ s =>
    (Ret tt,
     set_docs (fun o => o ∖ {[doc_handle d]}) (next_doc s)
       (log (EvDocClose (doc_handle d)) s)).

(** [client.chat.completions.create(...)]: the choices' contents. *)
Definition chat_completions_create (c : Client) (req : ChatRequest)
    : Py (list (option string)) :=
  fun w s =>
    (chat_create w (llm_calls s) (client_api_key c) req,
     count_llm_call (log (EvChatCreate req) s)).

(** [response.choices[0].message.content.strip()]. *)
Definition first_content_stripped (choices : list (option string))
    : Py string :=
  match choices with
  | [] => raise (Exc "IndexError" "list index out of range")
  | None :: _ =>
      raise (Exc "AttributeError"
               "'NoneType' object has no attribute 'strip'")
  | Some text :: _ => ret (strip text)
  end.

(** [datetime.now().strftime("%Y-%m-%d %H:%M:%S")]. *)
Definition now_strftime : Py string :=
  fun w s => (Ret (strftime (clock w (length (trace s)))), log EvNow s).

(** [d[k]]. *)
Definition dict_item (d : PyDict) (k : string) : Py string :=
  match dict_get k d with
  | Some v => ret v
  | None => raise (Exc "KeyError" ("'" +:+ k +:+ "'"))
  end.

(** Streamlit. *)
Definition st (c : StCall) : Py unit := emit (EvSt c).

Definition st_text_input (label value : string) : Py string :=
  fun w s => (Ret (text_input_value w value),
              log (EvSt (StTextInput label value)) s).

Definition st_file_uploader (label : string) : Py (option Upload) :=
  fun w s => (Ret (uploaded_file w), log (EvSt (StFileUploader label)) s).

Definition st_button (label : string) : Py bool :=
  fun w s => (Ret (button_pressed w), log (EvSt (StButton label)) s).

Definition session_contains (k : string) : Py bool :=
  fun _ s => (Ret (bool_decide (is_Some (session_state s !! k))), s).

Definition session_set (k v : string) : Py unit :=
  fun _ s => (Ret tt, set_session (insert k v) s).

Definition session_get (k : string) : Py string :=
  fun _ s =>
    match session_state s !! k with
    | Some v => (Ret v, s)
    | None => (Raise (Exc "AttributeError"
                        ("st.session_state has no attribute " +:+ dq +:+ k
                         +:+ dq)), s)
    end.

(* ===================================================================== *)
(** ** [api.py] *)
(* ===================================================================== *)
Module Api.

Record BloodworkExtractor : Type := { client : Client }.

(** [__init__]. *)
Definition init (openai_api_key : string) : BloodworkExtractor :=
  {| client := {| client_api_key := openai_api_key |} |}.

Definition extract_text_from_pdf (self : BloodworkExtractor) (pdf_path : string)
    : Py string :=
  doc <- fitz_open pdf_path ;;
  text <- for_each (doc_pages doc)
            (fun page text => t <- get_text page ;; ret (text +:+ t))
            EmptyString ;;
  doc_close doc ;;
  ret text.

(** The lines of the f-string [prompt] above the report text. *)
Definition instruction_lines : list string :=
  [
    EmptyString;
    "        Analyze this medical lab report and extract ALL test results in the format used in Russian medical consultation notes.";
    EmptyString;
    "        Format each result as: " +:+ dq +:+ "Test name: value unit (reference range) status" +:+ dq;
    "        Group by test type and include the test date.";
    EmptyString;
    "        Example format:";
    "        " +:+ dq +:+ "ОАК от 17.07.2025: лейкоциты 5.5 /л (4-9), эритроциты 4.8 /л (3.9-4.7) выше нормы, гемоглобин 135 г/л (120-140)" +:+ dq;
    EmptyString;
    "        Rules:";
    "        1. Keep original Russian test names";
    "        2. Include all numerical values with units";
    "        3. Include reference ranges in parentheses";
    "        4. Add status (повышено/понижено/выше нормы/ниже нормы) when indicated";
    "        5. Group related tests together";
    "        6. Use commas to separate individual tests";
    "        7. Use semicolons to separate different test groups";
    "        8. Include test dates when available";
    EmptyString;
    "        Medical lab report text:"
  ].

(** The f-string [prompt]: the instruction, then [{pdf_text}] on a line
    of its own, then the rest of the literal. *)
Definition prompt (pdf_text : string) : string :=
  String.concat nl
    (instruction_lines ++
     [
      "        " +:+ pdf_text;
      "        "
     ]).

Definition system_content : string :=
  "You are a medical transcription assistant. Extract lab results accurately and format them for Russian medical consultation notes.".

Definition request (pdf_text : string) : ChatRequest :=
  {| model := "gpt-4o";
     messages := [("system", system_content); ("user", prompt pdf_text)];
     temperature := 1 # 10 |}.

Definition extract_bloodwork_results (self : BloodworkExtractor)
    (pdf_text : string) : Py string :=
  response <- chat_completions_create (client self) (request pdf_text) ;;
  first_content_stripped response.

Definition process_lab_report (self : BloodworkExtractor) (pdf_path : string)
    : Py PyDict :=
  pdf_text <- extract_text_from_pdf self pdf_path ;;
  formatted_results <- extract_bloodwork_results self pdf_text ;;
  processed_at <- now_strftime ;;
  ret [("raw_text", pdf_text);
       ("formatted_results", formatted_results);
       ("processed_at", processed_at)].

(** The handler of [POST /process_pdf/]. *)
Definition process_pdf (file : Upload) : Py PyDict :=
  api_key <- os_environ_get "OPENAI_API_KEY" ;;
  if negb (truthy_opt api_key) then
    raise (HTTPException 500 "OPENAI_API_KEY not set in environment")
  else
    let file_path := "temp_" +:+ filename file in
    write_file file_path (content file) ;;
    try_finally
      (try_except
         (let extractor := init (default EmptyString api_key) in
          results <- process_lab_report extractor file_path ;;
          ret results)
         (fun e => raise (HTTPException 500 (str e))))
      (there <- os_path_exists file_path ;;
       if there then os_remove file_path else ret tt).

End Api.

(* ===================================================================== *)
(** ** [bloodwork_app.py] *)
(* ===================================================================== *)
Module BloodworkApp.

Record BloodworkExtractor : Type := { client : Client }.

(** [__init__]. *)
Definition init (openai_api_key : string) : BloodworkExtractor :=
  {| client := {| client_api_key := openai_api_key |} |}.

(** Extract text from PDF using PyMuPDF. *)
Definition extract_text_from_pdf (self : BloodworkExtractor) (pdf_path : string)
    : Py string :=
  doc <- fitz_open pdf_path ;;
  text <- for_each (doc_pages doc)
            (fun page text => t <- get_text page ;; ret (text +:+ t))
            EmptyString ;;
  doc_close doc ;;
  ret text.

(** The lines of the f-string [prompt] above the report text. *)
Definition instruction_lines : list string :=
  [
    EmptyString;
    "        Analyze this medical lab report and extract ALL test results in the format used in Russian medical consultation notes.";
    EmptyString;
    "        Format each result as: " +:+ dq +:+ "Test name: value unit (reference range) status" +:+ dq;
    "        Group by test type and include the test date.";
    EmptyString;
    "        Example format:";
    "        " +:+ dq +:+ "ОАК от 17.07.2025: лейкоциты 5.5 /л (4-9), эритроциты 4.8 /л (3.9-4.7) выше нормы, гемоглобин 135 г/л (120-140)" +:+ dq;
    EmptyString;
    "        Rules:";
    "        1. Keep original Russian test names";
    "        2. Include all numerical values with units";
    "        3. Include reference ranges in parentheses";
    "        4. Add status (повышено/понижено/выше нормы/ниже нормы) when indicated";
    "        5. Group related tests together";
    "        6. Use commas to separate individual tests";
    "        7. Use semicolons to separate different test groups";
    "        8. Include test dates when available";
    EmptyString;
    "        Medical lab report text:"
  ].

(** The f-string [prompt]: the instruction, then [{pdf_text}] on a line
    of its own, then the rest of the literal. *)
Definition prompt (pdf_text : string) : string :=
  String.concat nl
    (instruction_lines ++
     [
      "        " +:+ pdf_text;
      EmptyString;
      "        Extract and format the results:";
      "        "
     ]).

Definition system_content : string :=
  "You are a medical transcription assistant. Extract lab results accurately and format them for Russian medical consultation notes.".

Definition request (pdf_text : string) : ChatRequest :=
  {| model := "gpt-4o";
     messages := [("system", system_content); ("user", prompt pdf_text)];
     temperature := 1 # 10 |}.

(** Use LLM to extract and format bloodwork results. *)
Definition extract_bloodwork_results (self : BloodworkExtractor)
    (pdf_text : string) : Py string :=
  try_except
    (response <- chat_completions_create (client self) (request pdf_text) ;;
     first_content_stripped response)
    (fun e => ret ("Error processing results: " +:+ str e)).

(** Complete workflow to process lab report. *)
Definition process_lab_report (self : BloodworkExtractor) (pdf_path : string)
    : Py PyDict :=
  pdf_text <- extract_text_from_pdf self pdf_path ;;
  formatted_results <- extract_bloodwork_results self pdf_text ;;
  processed_at <- now_strftime ;;
  ret [("raw_text", pdf_text);
       ("formatted_results", formatted_results);
       ("processed_at", processed_at)].

(** The Streamlit script. *)
Definition main : Py unit :=
  st StSetPageConfig ;;
  st (StTitle "🩸 Extracting Bloodwork Results for Consultation Notes") ;;
  st StMarkdown ;;
  env_api_key <- os_environ_get "OPENAI_API_KEY" ;;
  api_key <-
    (if truthy_opt env_api_key then
       st (StSuccess "✅ Using API key from environment variable") ;;
       ret (default EmptyString env_api_key)
     else
       known <- session_contains "openai_api_key" ;;
       (if negb known then session_set "openai_api_key" EmptyString
        else ret tt) ;;
       value <- session_get "openai_api_key" ;;
       st_text_input "OpenAI API Key" value) ;;
  (if truthy api_key then
     (if negb (truthy_opt env_api_key)
      then session_set "openai_api_key" api_key
      else ret tt) ;;
     let extractor := init api_key in
     uploaded <- st_file_uploader "Upload Lab Results PDF" ;;
     match uploaded with
     | Some uploaded_file =>
         let temp := "temp_" +:+ filename uploaded_file in
         write_file temp (content uploaded_file) ;;
         pressed <- st_button "Extract Results" ;;
         if pressed then
           st (StSpinner "Processing lab results...") ;;
           try_except
             (results <- process_lab_report extractor temp ;;
              st (StSuccess "✅ Results extracted successfully!") ;;
              st (StSubheader " Formatted Results for Consultation Notes") ;;
              formatted_text <- dict_item results "formatted_results" ;;
              st (StTextArea "Copy this text to your consultation notes:" formatted_text) ;;
              st (StExpander " View Raw Extracted Text") ;;
              raw_text <- dict_item results "raw_text" ;;
              st (StTextArea "Raw text from PDF:" raw_text) ;;
              os_remove temp)
             (fun e =>
                st (StError ("❌ Error processing file: " +:+ str e)) ;;
                there <- os_path_exists temp ;;
                if there then os_remove temp else ret tt)
         else ret tt
     | None => ret tt
     end
   else
     st (StWarning "⚠️ Please provide your OpenAI API key to continue.")) ;;
  st StSidebar ;;
  st StMarkdown.

End BloodworkApp.

(* ===================================================================== *)
(** ** Vocabulary of the specification *)
(* ===================================================================== *)

(** [t] stands in [s] at byte offset [k]. *)
Definition occurs_at (k : nat) (t s : string) : Prop :=
  substring k (String.length t) s = t.

(** The eight formatting rules as the instruction spells them. *)
Definition formatting_rules : string :=
  String.concat nl
    [ "        1. Keep original Russian test names";
      "        2. Include all numerical values with units";
      "        3. Include reference ranges in parentheses";
      "        4. Add status (повышено/понижено/выше нормы/ниже нормы) when indicated";
      "        5. Group related tests together";
      "        6. Use commas to separate individual tests";
      "        7. Use semicolons to separate different test groups";
      "        8. Include test dates when available" ].

(** The text of a prompt that stands before the report text: the
    instruction lines and the indentation of the report's line. *)
Definition prompt_head (lines : list string) : string :=
  String.concat nl lines +:+ nl +:+ "        ".

(** The text that stands after the report text in [api.py]: the line break
    and the indentation of the closing quotes. *)
Definition api_prompt_tail : string := nl +:+ "        ".

(** The text that stands after the report text in [bloodwork_app.py]. *)
Definition app_prompt_tail : string :=
  nl +:+ nl +:+ "        Extract and format the results:" +:+ nl
  +:+ "        ".



(** The two entry surfaces, each with its own copy of the extractor. *)
Inductive Surface : Type :=
  | ServiceEndpoint      (* api.py *)
  | InteractiveFrontEnd. (* bloodwork_app.py *)

(** The contracts of the specification, read on either copy built with
    the credential [key]. *)
Definition extract_text (f : Surface) (key : string) : string -> Py string :=
  match f with
  | ServiceEndpoint => Api.extract_text_from_pdf (Api.init key)
  | InteractiveFrontEnd =>
      BloodworkApp.extract_text_from_pdf (BloodworkApp.init key)
  end.

Definition format_results (f : Surface) (key : string) : string -> Py string :=
  match f with
  | ServiceEndpoint => Api.extract_bloodwork_results (Api.init key)
  | InteractiveFrontEnd =>
      BloodworkApp.extract_bloodwork_results (BloodworkApp.init key)
  end.

Definition process (f : Surface) (key : string) : string -> Py PyDict :=
  match f with
  | ServiceEndpoint => Api.process_lab_report (Api.init key)
  | InteractiveFrontEnd =>
      BloodworkApp.process_lab_report (BloodworkApp.init key)
  end.

Definition formatting_request (f : Surface) : string -> ChatRequest :=
  match f with
  | ServiceEndpoint => Api.request
  | InteractiveFrontEnd => BloodworkApp.request
  end.

Definition user_message (f : Surface) : string -> string :=
  match f with
  | ServiceEndpoint => Api.prompt
  | InteractiveFrontEnd => BloodworkApp.prompt
  end.

Definition instruction (f : Surface) : string :=
  match f with
  | ServiceEndpoint => prompt_head Api.instruction_lines
  | InteractiveFrontEnd => prompt_head BloodworkApp.instruction_lines
  end.

Definition after_raw_text (f : Surface) : string :=
  match f with
  | ServiceEndpoint => api_prompt_tail
  | InteractiveFrontEnd => app_prompt_tail
  end.

(** A state with further events at the end of its trace. *)
Definition logs (evs : list Event) (s : State) : State :=
  {| fs := fs s; open_docs := open_docs s; next_doc := next_doc s;
     llm_calls := llm_calls s; session_state := session_state s;
     trace := trace s ++ evs |}.

(** The events a run from [s] to [s'] added. *)
Definition events_since (s s' : State) : list Event :=
  drop (length (trace s)) (trace s').

(** Calls on PyMuPDF. *)
Definition fitz_call (ev : Event) : bool :=
  match ev with
  | EvFitzOpen _ | EvGetText _ _ | EvDocClose _ => true
  | _ => false
  end.

(** Reading, writing or removing a document, and processing it. *)
Definition document_io (ev : Event) : bool :=
  match ev with
  | EvFileWrite _ | EvPathExists _ | EvFileRemove _
  | EvFitzOpen _ | EvGetText _ _ | EvDocClose _
  | EvChatCreate _ | EvNow => true
  | EvEnvironGet _ | EvSt _ => false
  end.

(** The [get_text] calls on pages [i], [i+1], ... of document [h]. *)
Definition page_reads (h i n : nat) : list Event :=
  EvGetText h <$> seq i n.

(** What the loop over the pages leaves in [text], starting from [acc]:
    every page's text in turn, or the first error met. *)
Fixpoint pages_text (acc : string) (texts : list (outcome string))
    : outcome string :=
  match texts with
  | [] => Ret acc
  | Ret t :: rest => pages_text (acc +:+ t) rest
  | Raise e :: _ => Raise e
  end.

(** The number of pages the loop asks for their text. *)
Fixpoint pages_read (texts : list (outcome string)) : nat :=
  match texts with
  | [] => 0
  | Ret _ :: rest => S (pages_read rest)
  | Raise _ :: _ => 1
  end.

(** The state after the model service was called with [req]. *)
Definition called (req : ChatRequest) (s : State) : State :=
  count_llm_call (log (EvChatCreate req) s).

(** What the service call made in state [s] gives once the first choice's
    content is taken and stripped: a text, the service's error, or the
    error of reading a malformed response. *)
Definition service_reply (w : World) (s : State) (key : string)
    (req : ChatRequest) : outcome string :=
  match chat_create w (llm_calls s) key req with
  | Raise e => Raise e
  | Ret choices => (first_content_stripped choices w s).1
  end.

(** The run came back with a value. *)
Definition returned {A : Type} (r : outcome A) : bool :=
  match r with
  | Ret _ => true
  | Raise _ => false
  end.

(** *** The blocks of [main]

    Where [main] takes the key from: the environment, or else the key
    input of the page, pre-filled from the session (lines 101-113). *)
Definition key_block (env_api_key : option string) : Py string :=
  if truthy_opt env_api_key then
     st (StSuccess "✅ Using API key from environment variable") ;;
     ret (default EmptyString env_api_key)
   else
     known <- session_contains "openai_api_key" ;;
     (if negb known then session_set "openai_api_key" EmptyString
      else ret tt) ;;
     value <- session_get "openai_api_key" ;;
     st_text_input "OpenAI API Key" value.

(** What [main] runs when [Extract Results] is pressed on the upload
    saved at [temp] (lines 135-168). *)
Definition extract_click (api_key temp : string) : Py unit :=
  st (StSpinner "Processing lab results...") ;;
  try_except
    (results <- BloodworkApp.process_lab_report (BloodworkApp.init api_key) temp ;;
     st (StSuccess "✅ Results extracted successfully!") ;;
     st (StSubheader " Formatted Results for Consultation Notes") ;;
     formatted_text <- dict_item results "formatted_results" ;;
     st (StTextArea "Copy this text to your consultation notes:" formatted_text) ;;
     st (StExpander " View Raw Extracted Text") ;;
     raw_text <- dict_item results "raw_text" ;;
     st (StTextArea "Raw text from PDF:" raw_text) ;;
     os_remove temp)
    (fun e =>
       st (StError ("❌ Error processing file: " +:+ str e)) ;;
       there <- os_path_exists temp ;;
       if there then os_remove temp else ret tt).

(** The key [main] goes on with. *)
Definition key_in_use (w : World) (s : State) : string :=
  if truthy_opt (environ w !! "OPENAI_API_KEY")
  then default EmptyString (environ w !! "OPENAI_API_KEY")
  else text_input_value w
         (default EmptyString (session_state s !! "openai_api_key")).


(** What the formatter of either copy makes of an error [e] of the model
    call: [api.py] lets it through, [bloodwork_app.py] turns it into a
    text. *)
Definition on_model_error (f : Surface) (e : PyExc) : outcome string :=
  match f with
  | ServiceEndpoint => Raise e
  | InteractiveFrontEnd => Ret ("Error processing results: " +:+ str e)
  end.

(** *** Sample collaborators *)

Definition empty_state : State :=
  {| fs := ∅; open_docs := ∅; next_doc := 0; llm_calls := 0;
     session_state := ∅; trace := [] |}.

(** A disk holding one uploaded report. *)
Definition disk_with_report : State :=
  set_fs (insert "report.pdf" "%PDF-1.7") empty_state.

Definition sample_clock (n : nat) : DateTime :=
  {| year := 2025; month := 7; day := 17;
     hour := 10; minute := 30; second := n |}.

(** A world without environment variables in which PyMuPDF reads every
    file as [pages], the model service answers [answer], every write
    succeeds, and nothing is typed, uploaded or pressed. *)
Definition sample_world (pages : outcome (list (outcome string)))
    (answer : outcome (list (option string))) : World :=
  {| environ := ∅;
     pdf_parse := fun _ => pages;
     chat_create := fun _ _ _ => answer;
     clock := sample_clock;
     write_error := fun _ _ => None;
     text_input_value := fun value => value;
     uploaded_file := None;
     button_pressed := false |}.

Definition two_pages : outcome (list (outcome string)) :=
  Ret [Ret "Hb 135 g/l"; Ret " (120-140)"].

Definition broken_second_page : outcome (list (outcome string)) :=
  Ret [Ret "Hb 135 g/l"; Raise (Exc "RuntimeError" "cannot load page")].

Definition service_down : outcome (list (option string)) :=
  Raise (Exc "APIConnectionError" "Connection error.").

Definition service_answer : outcome (list (option string)) :=
  Ret [Some " Hb 135 g/l (120-140) "].

(* ===================================================================== *)
(** * Properties *)
(* ===================================================================== *)

(** ** Strings *)
Section StringFacts.

Lemma append_cons (x : ascii) (a b : string) :
  String x a +:+ b = String x (a +:+ b).
Proof. reflexivity. Qed.

Lemma append_nil_r (a : string) : a +:+ EmptyString = a.
Proof.
  induction a as [|c a IH]; [done |]. by rewrite append_cons, IH.
Qed.

Lemma append_assoc (a b c : string) : (a +:+ b) +:+ c = a +:+ b +:+ c.
Proof.
  induction a as [|x a IH]; [done |]. by rewrite !append_cons, IH.
Qed.

Lemma length_append (a b : string) :
  String.length (a +:+ b) = String.length a + String.length b.
Proof.
  induction a as [|x a IH]; [done |]. rewrite append_cons. simpl.
  by rewrite IH.
Qed.

Lemma substring_prefix (b c : string) :
  substring 0 (String.length b) (b +:+ c) = b.
Proof.
  induction b as [|x b IH]; [by destruct c |].
  rewrite append_cons. simpl. by rewrite IH.
Qed.

(** The middle of a three-part string is found at the length of the
    first part. *)
Lemma substring_middle (a b c : string) :
  substring (String.length a) (String.length b) (a +:+ b +:+ c) = b.
Proof.
  induction a as [|x a IH]; [exact (substring_prefix b c) |].
  rewrite append_cons. simpl. apply IH.
Qed.

(** A window that fits in the first part does not see what follows. *)
Lemma substring_within (k n : nat) (a c : string) :
  k + n <= String.length a -> substring k n (a +:+ c) = substring k n a.
Proof.
  revert k n; induction a as [|x a IH]; intros k n Hk; simpl in Hk.
  - assert (k = 0) as -> by lia. assert (n = 0) as -> by lia.
    by destruct c.
  - rewrite append_cons. destruct k as [|k]; simpl.
    + destruct n as [|n]; [done |]. f_equal.
      apply (IH 0 n). lia.
    + apply IH. lia.
Qed.

Lemma occurs_at_middle (a b c : string) :
  occurs_at (String.length a) b (a +:+ b +:+ c).
Proof. apply substring_middle. Qed.

Lemma occurs_at_head (k : nat) (t a c : string) :
  k + String.length t <= String.length a ->
  occurs_at k t a -> occurs_at k t (a +:+ c).
Proof.
  unfold occurs_at. intros Hk Ht. by rewrite substring_within.
Qed.

(** A string that ends with [b] shows [b] in its last bytes. *)
Lemma occurs_at_end (p a b : string) :
  p = a +:+ b -> occurs_at (String.length p - String.length b) b p.
Proof.
  intros ->. rewrite length_append.
  replace (String.length a + String.length b - String.length b)
    with (String.length a) by lia.
  pose proof (occurs_at_middle a b EmptyString) as H.
  by rewrite append_nil_r in H.
Qed.

Lemma concat_snoc2 (sep : string) (xs : list string) (y : string)
    (ys : list string) :
  xs <> [] ->
  String.concat sep (xs ++ y :: ys)
  = String.concat sep xs +:+ sep +:+ String.concat sep (y :: ys).
Proof.
  induction xs as [|x xs IH]; [done |]. intros _.
  destruct xs as [|x' xs].
  - done.
  - change (String.concat sep ((x :: x' :: xs) ++ y :: ys))
      with (x +:+ sep +:+ String.concat sep ((x' :: xs) ++ y :: ys)).
    rewrite IH by done.
    change (String.concat sep (x :: x' :: xs))
      with (x +:+ sep +:+ String.concat sep (x' :: xs)).
    by rewrite !append_assoc.
Qed.

End StringFacts.

(** ** The prompt *)

(** Both f-strings are their head, the report text and their tail. *)
Lemma api_prompt_split (R : string) :
  Api.prompt R = prompt_head Api.instruction_lines +:+ R +:+ api_prompt_tail.
Proof.
  unfold Api.prompt, prompt_head, api_prompt_tail.
  rewrite concat_snoc2 by done. simpl String.concat.
  by rewrite !append_assoc.
Qed.

Lemma app_prompt_split (R : string) :
  BloodworkApp.prompt R
  = prompt_head BloodworkApp.instruction_lines +:+ R +:+ app_prompt_tail.
Proof.
  unfold BloodworkApp.prompt, prompt_head, app_prompt_tail.
  rewrite concat_snoc2 by done.
  change (String.concat nl
            ["        " +:+ R; EmptyString;
             "        Extract and format the results:"; "        "])
    with (("        " +:+ R) +:+ nl +:+ EmptyString +:+ nl
          +:+ "        Extract and format the results:" +:+ nl +:+ "        ").
  rewrite !append_assoc. done.
Qed.

(** ** Running the extractor *)

Lemma logs_nil (s : State) : logs [] s = s.
Proof. destruct s. unfold logs; simpl. by rewrite app_nil_r. Qed.

Lemma logs_log (e : Event) (evs : list Event) (s : State) :
  logs evs (log e s) = logs (e :: evs) s.
Proof. unfold logs, log; simpl. by rewrite <- app_assoc. Qed.

Lemma events_since_app (s s' : State) (evs : list Event) :
  trace s' = trace s ++ evs -> events_since s s' = evs.
Proof. unfold events_since. intros ->. by rewrite drop_app_length. Qed.

Lemma page_reads_S (h i n : nat) :
  page_reads h i (S n) = EvGetText h i :: page_reads h (S i) n.
Proof. reflexivity. Qed.

(** The loop [for page in doc: text += page.get_text()]. *)
Lemma pages_loop_run (h : nat) (w : World) (texts : list (outcome string)) :
  forall (i : nat) (acc : string) (s : State),
    for_each (number_pages h i texts)
      (fun page text => t <- get_text page ;; ret (text +:+ t)) acc w s
    = (pages_text acc texts, logs (page_reads h i (pages_read texts)) s).
Proof.
  induction texts as [|t rest IH]; intros i acc s.
  - simpl. unfold ret, page_reads. simpl. by rewrite logs_nil.
  - destruct t as [x|e].
    + change (pages_text acc (Ret x :: rest)) with (pages_text (acc +:+ x) rest).
      change (pages_read (Ret x :: rest)) with (S (pages_read rest)).
      rewrite page_reads_S, <- logs_log, <- IH. reflexivity.
    + reflexivity.
Qed.

Lemma pages_text_all (ts : list string) :
  forall acc : string,
    pages_text acc (Ret <$> ts) = Ret (acc +:+ String.concat EmptyString ts).
Proof.
  induction ts as [|t ts IH]; intros acc.
  - simpl. by rewrite append_nil_r.
  - change (pages_text acc (Ret <$> t :: ts))
      with (pages_text (acc +:+ t) (Ret <$> ts)).
    rewrite IH, append_assoc. f_equal. f_equal.
    destruct ts as [|t' ts]; [by rewrite append_nil_r | reflexivity].
Qed.


(** Both copies of [extract_text_from_pdf]: what they return and the
    state they leave, for every disk and every behaviour of PyMuPDF. *)
Lemma extract_text_run (f : Surface) (key path : string) (w : World)
    (s : State) :
  extract_text f key path w s =
    match fs s !! path with
    | None =>
        (Raise (Exc "FileNotFoundError" ("no such file: '" +:+ path +:+ "'")),
         log (EvFitzOpen path) s)
    | Some bytes =>
        match pdf_parse w bytes with
        | Raise e => (Raise e, log (EvFitzOpen path) s)
        | Ret texts =>
            let h := next_doc s in
            let s1 :=
              logs (page_reads h 0 (pages_read texts))
                (set_docs (union {[h]}) (S h) (log (EvFitzOpen path) s)) in
            match pages_text EmptyString texts with
            | Ret text =>
                (Ret text,
                 set_docs (fun o => o ∖ {[h]}) (S h) (log (EvDocClose h) s1))
            | Raise e => (Raise e, s1)
            end
        end
    end.
Proof.
  assert (extract_text f key path
          = Api.extract_text_from_pdf (Api.init key) path) as ->
    by (by destruct f).
  unfold Api.extract_text_from_pdf, bind at 1, fitz_open.
  destruct (fs s !! path) as [bytes|]; [|done].
  destruct (pdf_parse w bytes) as [texts|e]; [|done].
  cbv zeta. unfold bind at 1. cbn [doc_pages doc_handle].
  rewrite pages_loop_run.
  destruct (pages_text EmptyString texts) as [text|e]; reflexivity.
Qed.

Lemma page_reads_fitz (h i n : nat) :
  Forall (fun ev => fitz_call ev = true) (page_reads h i n).
Proof. unfold page_reads. apply Forall_fmap, Forall_true. done. Qed.

(** Extraction leaves the disk and the model service alone and talks to
    PyMuPDF only. *)
Lemma extract_text_frame (f : Surface) (key path : string) (w : World)
    (s : State) (r : outcome string) (s1 : State) :
  extract_text f key path w s = (r, s1) ->
  llm_calls s1 = llm_calls s /\ fs s1 = fs s
  /\ exists evs, trace s1 = trace s ++ evs
                 /\ Forall (fun ev => fitz_call ev = true) evs.
Proof.
  rewrite extract_text_run.
  destruct (fs s !! path) as [bytes|].
  - destruct (pdf_parse w bytes) as [texts|e].
    + cbv zeta. destruct (pages_text EmptyString texts) as [text|e];
        intros [= <- <-]; simpl; (split; [done |]); (split; [done |]).
      * eexists. rewrite <- !app_assoc. split; [reflexivity |].
        simpl. constructor; [done |].
        apply Forall_app. split; [apply page_reads_fitz |].
        by constructor.
      * eexists. rewrite <- !app_assoc. split; [reflexivity |].
        simpl. constructor; [done | apply page_reads_fitz].
    + intros [= <- <-]; simpl. repeat (split; [done |]).
      eexists; split; [reflexivity | by constructor].
  - intros [= <- <-]; simpl. repeat (split; [done |]).
    eexists; split; [reflexivity | by constructor].
Qed.

(** ** Text extraction *)

(** C4: for a document that PyMuPDF opens and whose pages all yield their
    text, [extract_text_from_pdf] of either copy returns the texts of the
    pages joined in page order with nothing between them. *)
Theorem extract_text_concatenates_pages (f : Surface) (key path : string)
    (w : World) (s : State) (bytes : string) (texts : list string) :
  fs s !! path = Some bytes ->
  pdf_parse w bytes = Ret (Ret <$> texts) ->
  (extract_text f key path w s).1 = Ret (String.concat EmptyString texts).
Proof.
  intros Hfile Hparse. rewrite extract_text_run, Hfile, Hparse. cbv zeta.
  rewrite pages_text_all. reflexivity.
Qed.

Lemma extract_text_concatenates_pages_witness :
  fs disk_with_report !! "report.pdf" = Some "%PDF-1.7"
  /\ pdf_parse (sample_world two_pages service_answer) "%PDF-1.7"
     = Ret (Ret <$> ["Hb 135 g/l"; " (120-140)"])
  /\ (extract_text InteractiveFrontEnd "sk-test" "report.pdf"
        (sample_world two_pages service_answer) disk_with_report).1
     = Ret "Hb 135 g/l (120-140)".
Proof.
  split; [reflexivity |]. split; [reflexivity |].
  apply (extract_text_concatenates_pages InteractiveFrontEnd "sk-test"
           "report.pdf" (sample_world two_pages service_answer)
           disk_with_report "%PDF-1.7" ["Hb 135 g/l"; " (120-140)"]);
    reflexivity.
Defined.

Lemma concat_empty_pages (n : nat) :
  String.concat EmptyString (replicate n EmptyString) = EmptyString.
Proof.
  induction n as [|n IH]; [done |].
  destruct n as [|n]; [done |].
  change (String.concat EmptyString (replicate (S (S n)) EmptyString))
    with (String.concat EmptyString (replicate (S n) EmptyString)).
  exact IH.
Qed.

(** C9: for a document that PyMuPDF opens and none of whose pages has any
    extractable text, [extract_text_from_pdf] of either copy returns the
    empty string and raises nothing. *)
Theorem no_extractable_text_gives_empty_string (f : Surface)
    (key path : string) (w : World) (s : State) (bytes : string) (n : nat) :
  fs s !! path = Some bytes ->
  pdf_parse w bytes = Ret (replicate n (Ret EmptyString)) ->
  (extract_text f key path w s).1 = Ret EmptyString.
Proof.
  intros Hfile Hparse.
  rewrite extract_text_run, Hfile, Hparse. cbv zeta.
  rewrite <- fmap_replicate, pages_text_all, concat_empty_pages.
  reflexivity.
Qed.

Lemma no_extractable_text_gives_empty_string_witness :
  fs disk_with_report !! "report.pdf" = Some "%PDF-1.7"
  /\ pdf_parse (sample_world (Ret (replicate 3 (Ret EmptyString)))
                  service_answer) "%PDF-1.7"
     = Ret (replicate 3 (Ret EmptyString))
  /\ (extract_text ServiceEndpoint "sk-test" "report.pdf"
        (sample_world (Ret (replicate 3 (Ret EmptyString))) service_answer)
        disk_with_report).1
     = Ret EmptyString.
Proof.
  split; [reflexivity |]. split; [reflexivity |].
  apply (no_extractable_text_gives_empty_string ServiceEndpoint "sk-test"
           "report.pdf"
           (sample_world (Ret (replicate 3 (Ret EmptyString))) service_answer)
           disk_with_report "%PDF-1.7" 3);
    reflexivity.
Defined.

(** On the success path the handle is released: when
    [extract_text_from_pdf] returns, the handle it opened has been closed
    by its last call on PyMuPDF, and no handle is open that was not open
    before. *)
Theorem handle_closed_when_extraction_returns (f : Surface)
    (key path : string) (w : World) (s : State) (text : string) (s' : State) :
  extract_text f key path w s = (Ret text, s') ->
  (next_doc s ∉ open_docs s')
  /\ (forall h : nat, h ∈ open_docs s' -> h ∈ open_docs s)
  /\ exists n : nat,
       events_since s s'
       = EvFitzOpen path :: page_reads (next_doc s) 0 n
         ++ [EvDocClose (next_doc s)].
Proof.
  rewrite extract_text_run.
  destruct (fs s !! path) as [bytes|]; [|done].
  destruct (pdf_parse w bytes) as [texts|e]; [|done].
  cbv zeta. destruct (pages_text EmptyString texts) as [t|e]; [|done].
  intros [= <- <-]. simpl. split; [| split].
  - intros [_ Hout]%elem_of_difference. by apply Hout, elem_of_singleton.
  - intros h [[Hin|Hin]%elem_of_union Hout]%elem_of_difference; done.
  - exists (pages_read texts). apply events_since_app. simpl.
  by rewrite <- !app_assoc.
Qed.

Lemma handle_closed_when_extraction_returns_witness :
  let run := extract_text ServiceEndpoint "sk-test" "report.pdf"
               (sample_world two_pages service_answer) disk_with_report in
  run.1 = Ret "Hb 135 g/l (120-140)"
  /\ (0 ∉ open_docs run.2)
  /\ events_since disk_with_report run.2
     = [EvFitzOpen "report.pdf"; EvGetText 0 0; EvGetText 0 1; EvDocClose 0].
Proof.
  cbv zeta.
  destruct (handle_closed_when_extraction_returns ServiceEndpoint "sk-test"
              "report.pdf" (sample_world two_pages service_answer)
              disk_with_report "Hb 135 g/l (120-140)"
              (extract_text ServiceEndpoint "sk-test" "report.pdf"
                 (sample_world two_pages service_answer)
                 disk_with_report).2) as (Hclosed & _ & _).
  - reflexivity.
  - split; [reflexivity |]. split; [exact Hclosed | reflexivity].
Defined.

(** C2: the claim asks for the handle to be closed on every exit path;
    the code closes it on the success path only.  Here the second page of
    the report fails to give its text: the error leaves
    [extract_text_from_pdf] of either copy with the handle still open and
    [doc.close()] never called. *)
Lemma handle_left_open_when_page_fails :
  let w := sample_world broken_second_page service_answer in
  let api := extract_text ServiceEndpoint "sk-test" "report.pdf" w
               disk_with_report in
  let app := extract_text InteractiveFrontEnd "sk-test" "report.pdf" w
               disk_with_report in
  (0 ∉ open_docs disk_with_report)
  /\ api.1 = Raise (Exc "RuntimeError" "cannot load page")
  /\ 0 ∈ open_docs api.2
  /\ events_since disk_with_report api.2
     = [EvFitzOpen "report.pdf"; EvGetText 0 0; EvGetText 0 1]
  /\ app.1 = Raise (Exc "RuntimeError" "cannot load page")
  /\ 0 ∈ open_docs app.2
  /\ events_since disk_with_report app.2
     = [EvFitzOpen "report.pdf"; EvGetText 0 0; EvGetText 0 1].
Proof.
  intros w api app. subst api app.
  rewrite !extract_text_run.
  repeat split; try reflexivity; vm_compute; set_solver.
Qed.

(** ** The formatting request *)

Lemma user_message_split (f : Surface) (R : string) :
  user_message f R = instruction f +:+ R +:+ after_raw_text f.
Proof. destruct f; [apply api_prompt_split | apply app_prompt_split]. Qed.

(** C6, counterexample: for the raw text [Hb 135 g/l] the user message of
    neither copy ends with the raw text. *)
Lemma raw_text_is_not_last :
  ~ (exists template : string,
       Api.prompt "Hb 135 g/l" = template +:+ "Hb 135 g/l")
  /\ ~ (exists template : string,
          BloodworkApp.prompt "Hb 135 g/l" = template +:+ "Hb 135 g/l").
Proof.
  split; intros [template H]; apply occurs_at_end in H;
    vm_compute in H; discriminate H.
Qed.

(** C6, as the code has it: the user message is the fixed instruction,
    then the raw text, then a fixed rest of the template.  In [api.py] the
    rest is white space (the line break and the indentation of the closing
    quotes); in [bloodwork_app.py] it carries one more line,
    [Extract and format the results:]. *)
Theorem user_message_is_instruction_raw_text_rest (f : Surface) (R : string) :
  user_message f R = instruction f +:+ R +:+ after_raw_text f
  /\ strip (after_raw_text ServiceEndpoint) = EmptyString
  /\ strip (after_raw_text InteractiveFrontEnd)
     = "Extract and format the results:".
Proof.
  split; [apply user_message_split |].
  split; vm_compute; reflexivity.
Qed.

(** ** Formatting and the whole pipeline *)

Lemma format_results_run (f : Surface) (key text : string) (w : World)
    (s : State) :
  format_results f key text w s =
    (match f, service_reply w s key (formatting_request f text) with
     | ServiceEndpoint, r => r
     | InteractiveFrontEnd, Ret t => Ret t
     | InteractiveFrontEnd, Raise e =>
         Ret ("Error processing results: " +:+ str e)
     end,
     called (formatting_request f text) s).
Proof.
  unfold service_reply.
  destruct f; simpl;
    unfold Api.extract_bloodwork_results, BloodworkApp.extract_bloodwork_results,
      try_except, bind, chat_completions_create; simpl;
    destruct (chat_create w (llm_calls s) key _) as [[|[c|] rest]|e];
    reflexivity.
Qed.

Lemma process_run (f : Surface) (key path : string) (w : World) (s : State) :
  process f key path w s =
    match extract_text f key path w s with
    | (Raise e, s1) => (Raise e, s1)
    | (Ret text, s1) =>
        match format_results f key text w s1 with
        | (Raise e, s2) => (Raise e, s2)
        | (Ret formatted, s2) =>
            (Ret [("raw_text", text);
                  ("formatted_results", formatted);
                  ("processed_at", strftime (clock w (length (trace s2))))],
             log EvNow s2)
        end
    end.
Proof.
  destruct f; simpl;
    unfold Api.process_lab_report, BloodworkApp.process_lab_report, bind at 1.
  - destruct (Api.extract_text_from_pdf _ _ _ _) as [[text|e] s1]; [|done].
    unfold bind at 1.
    by destruct (Api.extract_bloodwork_results _ _ _ _) as [[t|e] s2].
  - destruct (BloodworkApp.extract_text_from_pdf _ _ _ _) as [[text|e] s1];
      [|done].
    unfold bind at 1.
    by destruct (BloodworkApp.extract_bloodwork_results _ _ _ _) as [[t|e] s2].
Qed.

(** C5: the formatter of either copy sends one request to the model
    service, the Formatting Request built from the raw text: a system
    message and a user message, in this order.  The user message of that
    request shows the raw text, byte for byte, right after the
    instruction; the instruction is a fixed text that opens every user
    message, and the eight formatting rules stand in it at one and the
    same place whatever the raw text is. *)
Theorem user_message_embeds_raw_text (f : Surface) (key R : string)
    (w : World) (s : State) :
  events_since s (format_results f key R w s).2
  = [EvChatCreate (formatting_request f R)]
  /\ fst <$> messages (formatting_request f R) = ["system"; "user"]
  /\ dict_get "user" (messages (formatting_request f R))
     = Some (user_message f R)
  /\ occurs_at (String.length (instruction f)) R (user_message f R)
  /\ occurs_at 0 (instruction f) (user_message f R)
  /\ occurs_at 473 formatting_rules (instruction f)
  /\ occurs_at 473 formatting_rules (user_message f R).
Proof.
  split.
  { rewrite format_results_run. by apply events_since_app. }
  split; [by destruct f |]. split; [by destruct f |].
  rewrite user_message_split.
  assert (occurs_at 473 formatting_rules (instruction f)) as Hrules
    by (destruct f; vm_compute; reflexivity).
  split; [apply occurs_at_middle |].
  split; [apply substring_prefix |].
  split; [exact Hrules |].
  apply occurs_at_head; [| exact Hrules].
  apply Nat.leb_le. destruct f; vm_compute; reflexivity.
Qed.

(** C3: [process_lab_report] of either copy first extracts the text,
    talking to PyMuPDF only; if that raises, the same error comes out in
    the same state, so that the model service is never called.
    Otherwise the formatter runs next, on the extracted text, and calls
    the model service with the request built from it; if the formatter
    raises, its error comes out.  Otherwise the clock is read, after the
    model call, and the record is put together from the extracted text,
    the formatter's result and the time read. *)
Theorem process_strictly_ordered (f : Surface) (key path : string)
    (w : World) (s : State) (r1 : outcome string) (s1 : State) :
  extract_text f key path w s = (r1, s1) ->
  Forall (fun ev => fitz_call ev = true) (events_since s s1)
  /\ llm_calls s1 = llm_calls s
  /\ match r1 with
     | Raise e => process f key path w s = (Raise e, s1)
     | Ret text =>
         exists (r2 : outcome string) (s2 : State),
           format_results f key text w s1 = (r2, s2)
           /\ events_since s1 s2 = [EvChatCreate (formatting_request f text)]
           /\ match r2 with
              | Raise e => process f key path w s = (Raise e, s2)
              | Ret formatted =>
                  process f key path w s
                  = (Ret [("raw_text", text);
                          ("formatted_results", formatted);
                          ("processed_at",
                           strftime (clock w (length (trace s2))))],
                     log EvNow s2)
                  /\ events_since s1 (log EvNow s2)
                     = [EvChatCreate (formatting_request f text); EvNow]
              end
     end.
Proof.
  intros Hextract.
  destruct (extract_text_frame f key path w s r1 s1 Hextract)
    as (Hcalls & _ & evs & Htrace & Hfitz).
  split; [by rewrite (events_since_app s s1 evs Htrace) |].
  split; [exact Hcalls |].
  rewrite process_run, Hextract.
  destruct r1 as [text|e]; [|reflexivity].
  destruct (format_results f key text w s1) as [r2 s2] eqn:Hformat.
  exists r2, s2. split; [reflexivity |].
  assert (trace s2 = trace s1 ++ [EvChatCreate (formatting_request f text)])
    as Hcall.
  { rewrite format_results_run in Hformat. by injection Hformat as _ <-. }
  split; [by apply events_since_app |].
  destruct r2 as [formatted|e]; [| reflexivity].
  split; [reflexivity |].
  apply events_since_app. simpl. by rewrite Hcall, <- app_assoc.
Qed.

Lemma process_strictly_ordered_witness :
  let w := sample_world two_pages service_answer in
  let run := extract_text ServiceEndpoint "sk-test" "report.pdf" w
               disk_with_report in
  run = (Ret "Hb 135 g/l (120-140)", run.2)
  /\ Forall (fun ev => fitz_call ev = true)
       (events_since disk_with_report run.2)
  /\ exists s2 : State,
       format_results ServiceEndpoint "sk-test" "Hb 135 g/l (120-140)" w
         run.2
       = (Ret "Hb 135 g/l (120-140)", s2)
       /\ process ServiceEndpoint "sk-test" "report.pdf" w disk_with_report
          = (Ret [("raw_text", "Hb 135 g/l (120-140)");
                  ("formatted_results", "Hb 135 g/l (120-140)");
                  ("processed_at", "2025-07-17 10:30:05")],
             log EvNow s2)
       /\ events_since run.2 (log EvNow s2)
          = [EvChatCreate (Api.request "Hb 135 g/l (120-140)"); EvNow].
Proof.
  intros w run.
  assert (run = (Ret "Hb 135 g/l (120-140)", run.2)) as Hrun by reflexivity.
  split; [exact Hrun |].
  destruct (process_strictly_ordered ServiceEndpoint "sk-test" "report.pdf"
              w disk_with_report (Ret "Hb 135 g/l (120-140)") run.2 Hrun)
    as (Hfitz & _ & r2 & s2 & Hformat & _ & Horder).
  split; [exact Hfitz |].
  assert (r2 = Ret "Hb 135 g/l (120-140)") as ->.
  { assert (r2 = (format_results ServiceEndpoint "sk-test"
                    "Hb 135 g/l (120-140)" w run.2).1) as ->
      by (by rewrite Hformat).
    reflexivity. }
  exists s2. split; [exact Hformat |].
  destruct Horder as [Hprocess Hevents]. split; [| exact Hevents].
  rewrite Hprocess. do 4 f_equal.
  assert (s2 = (format_results ServiceEndpoint "sk-test"
                  "Hb 135 g/l (120-140)" w run.2).2) as ->
    by (by rewrite Hformat).
  reflexivity.
Defined.

(** C8: every record that [process_lab_report] of either copy returns has
    the three keys [raw_text], [formatted_results] and [processed_at], in
    this order and no other; its [raw_text] is what this very run
    extracted from the document at [path], and its [formatted_results] is
    what the formatter returned for exactly that text in this run. *)
Theorem result_derived_from_its_raw_text (f : Surface) (key path : string)
    (w : World) (s : State) (d : PyDict) (s' : State) :
  process f key path w s = (Ret d, s') ->
  fst <$> d = ["raw_text"; "formatted_results"; "processed_at"]
  /\ exists (raw formatted : string) (s1 s2 : State),
       dict_get "raw_text" d = Some raw
       /\ dict_get "formatted_results" d = Some formatted
       /\ extract_text f key path w s = (Ret raw, s1)
       /\ format_results f key raw w s1 = (Ret formatted, s2).
Proof.
  rewrite process_run.
  destruct (extract_text f key path w s) as [[raw|e] s1]; [|done].
  destruct (format_results f key raw w s1) as [[formatted|e] s2] eqn:Hformat;
    [|done].
  intros [= <- <-]. split; [reflexivity |].
  exists raw, formatted, s1, s2. by rewrite Hformat.
Qed.

Lemma result_derived_from_its_raw_text_witness :
  let w := sample_world two_pages service_answer in
  let run := process InteractiveFrontEnd "sk-test" "report.pdf" w
               disk_with_report in
  let d := [("raw_text", "Hb 135 g/l (120-140)");
            ("formatted_results", "Hb 135 g/l (120-140)");
            ("processed_at", "2025-07-17 10:30:05")] in
  run = (Ret d, run.2)
  /\ exists (raw formatted : string) (s1 s2 : State),
       dict_get "raw_text" d = Some raw
       /\ dict_get "formatted_results" d = Some formatted
       /\ extract_text InteractiveFrontEnd "sk-test" "report.pdf" w
            disk_with_report = (Ret raw, s1)
       /\ format_results InteractiveFrontEnd "sk-test" raw w s1
          = (Ret formatted, s2).
Proof.
  intros w run d.
  assert (run = (Ret d, run.2)) as Hrun by reflexivity.
  split; [exact Hrun |].
  exact (proj2 (result_derived_from_its_raw_text InteractiveFrontEnd
                  "sk-test" "report.pdf" w disk_with_report d run.2 Hrun)).
Defined.

(** C1, counterexample: the model service is down; [process_lab_report]
    of [bloodwork_app.py] still returns a record, with the extracted raw
    text and, as formatted results, a text made from the error. *)
Lemma front_end_returns_record_when_model_fails :
  let w := sample_world two_pages service_down in
  chat_create w 0 "sk-test" (BloodworkApp.request "Hb 135 g/l (120-140)")
  = Raise (Exc "APIConnectionError" "Connection error.")
  /\ (BloodworkApp.extract_bloodwork_results (BloodworkApp.init "sk-test")
        "Hb 135 g/l (120-140)" w disk_with_report).1
     = Ret "Error processing results: Connection error."
  /\ (BloodworkApp.process_lab_report (BloodworkApp.init "sk-test")
        "report.pdf" w disk_with_report).1
     = Ret [("raw_text", "Hb 135 g/l (120-140)");
            ("formatted_results",
             "Error processing results: Connection error.");
            ("processed_at", "2025-07-17 10:30:05")].
Proof. repeat split; reflexivity. Qed.

(** C1, as the code has it: when the model call fails with [e] (the
    service raises, or its response has no first choice with a content),
    [api.py] fails as a whole: [extract_bloodwork_results] raises [e]
    itself and [process_lab_report] raises [e] and returns no record;
    [bloodwork_app.py] catches [e]: [extract_bloodwork_results] returns
    the text [Error processing results: ] followed by [str(e)], and
    [process_lab_report] returns a record holding the raw text and that
    text. *)
Theorem model_failure_outcome (f : Surface) (key path : string) (w : World)
    (s : State) (text : string) (s1 : State) (e : PyExc) :
  extract_text f key path w s = (Ret text, s1) ->
  service_reply w s1 key (formatting_request f text) = Raise e ->
  match f with
  | ServiceEndpoint =>
      (format_results f key text w s1).1 = Raise e
      /\ (process f key path w s).1 = Raise e
  | InteractiveFrontEnd =>
      (format_results f key text w s1).1
      = Ret ("Error processing results: " +:+ str e)
      /\ exists stamp : string,
           (process f key path w s).1
           = Ret [("raw_text", text);
                  ("formatted_results",
                   "Error processing results: " +:+ str e);
                  ("processed_at", stamp)]
  end.
Proof.
  intros Hextract Hreply.
  pose proof (format_results_run f key text w s1) as Hformat.
  pose proof (process_run f key path w s) as Hprocess.
  rewrite Hextract in Hprocess. cbv beta iota in Hprocess.
  destruct f; cbv beta iota in Hformat; rewrite Hreply in Hformat;
    rewrite Hformat in Hprocess; rewrite Hformat, Hprocess; simpl.
  - done.
  - split; [done | by eauto].
Qed.

Lemma model_failure_outcome_witness :
  let w := sample_world two_pages service_down in
  let run := extract_text ServiceEndpoint "sk-test" "report.pdf" w
               disk_with_report in
  run = (Ret "Hb 135 g/l (120-140)", run.2)
  /\ service_reply w run.2 "sk-test" (Api.request "Hb 135 g/l (120-140)")
     = Raise (Exc "APIConnectionError" "Connection error.")
  /\ (process ServiceEndpoint "sk-test" "report.pdf" w disk_with_report).1
     = Raise (Exc "APIConnectionError" "Connection error.").
Proof.
  intros w run.
  assert (run = (Ret "Hb 135 g/l (120-140)", run.2)) as Hrun by reflexivity.
  assert (service_reply w run.2 "sk-test"
            (formatting_request ServiceEndpoint "Hb 135 g/l (120-140)")
          = Raise (Exc "APIConnectionError" "Connection error."))
    as Hreply by reflexivity.
  split; [exact Hrun |]. split; [exact Hreply |].
  exact (proj2 (model_failure_outcome ServiceEndpoint "sk-test" "report.pdf"
                  w disk_with_report "Hb 135 g/l (120-140)" run.2
                  (Exc "APIConnectionError" "Connection error.")
                  Hrun Hreply)).
Defined.

(** ** The two copies side by side *)

(** C10, counterexample: for the raw text [Hb 135 g/l] the two copies
    build different user messages, and with the model service down
    [api.py] raises where [bloodwork_app.py] returns a text. *)
Lemma copies_are_not_equivalent :
  let w := sample_world two_pages service_down in
  Api.prompt "Hb 135 g/l" <> BloodworkApp.prompt "Hb 135 g/l"
  /\ (Api.extract_bloodwork_results (Api.init "sk-test") "Hb 135 g/l" w
        empty_state).1
     = Raise (Exc "APIConnectionError" "Connection error.")
  /\ (BloodworkApp.extract_bloodwork_results (BloodworkApp.init "sk-test")
        "Hb 135 g/l" w empty_state).1
     = Ret "Error processing results: Connection error.".
Proof.
  intros w. split; [| split; reflexivity].
  intros H. apply (f_equal String.length) in H. vm_compute in H.
  discriminate H.
Qed.

(** C10, as the code has it: the two copies extract text in the same way
    and send requests with the same model, temperature, system message
    and instruction; their user messages differ in what follows the raw
    text; and when the model call fails with [e], [api.py] raises [e]
    while [bloodwork_app.py] returns [Error processing results: ] followed
    by [str(e)], both having called the service once. *)
Theorem copies_agree_up_to_prompt_rest_and_error_handling
    (key path text : string) (w : World) (s : State) (e : PyExc) :
  service_reply w s key (Api.request text) = Raise e ->
  service_reply w s key (BloodworkApp.request text) = Raise e ->
  extract_text ServiceEndpoint key path w s
  = extract_text InteractiveFrontEnd key path w s
  /\ instruction ServiceEndpoint = instruction InteractiveFrontEnd
  /\ (forall f : Surface,
        formatting_request f text
        = {| model := "gpt-4o";
             messages :=
               [("system", Api.system_content);
                ("user",
                 instruction ServiceEndpoint +:+ text +:+ after_raw_text f)];
             temperature := 1 # 10 |})
  /\ format_results ServiceEndpoint key text w s
     = (Raise e, called (Api.request text) s)
  /\ format_results InteractiveFrontEnd key text w s
     = (Ret ("Error processing results: " +:+ str e),
        called (BloodworkApp.request text) s).
Proof.
  intros Hapi Happ.
  split; [reflexivity |]. split; [reflexivity |]. split.
  - intros f. destruct f.
    + unfold formatting_request, Api.request.
      by rewrite api_prompt_split.
    + unfold formatting_request, BloodworkApp.request.
      by rewrite app_prompt_split.
  - rewrite !format_results_run. cbv beta iota.
    unfold formatting_request. by rewrite Hapi, Happ.
Qed.

Lemma copies_agree_up_to_prompt_rest_and_error_handling_witness :
  let w := sample_world two_pages service_down in
  let e := Exc "APIConnectionError" "Connection error." in
  service_reply w empty_state "sk-test" (Api.request "Hb 135 g/l") = Raise e
  /\ service_reply w empty_state "sk-test" (BloodworkApp.request "Hb 135 g/l")
     = Raise e
  /\ format_results ServiceEndpoint "sk-test" "Hb 135 g/l" w empty_state
     = (Raise e, called (Api.request "Hb 135 g/l") empty_state)
  /\ format_results InteractiveFrontEnd "sk-test" "Hb 135 g/l" w empty_state
     = (Ret ("Error processing results: " +:+ str e),
        called (BloodworkApp.request "Hb 135 g/l") empty_state).
Proof.
  intros w e.
  assert (service_reply w empty_state "sk-test" (Api.request "Hb 135 g/l")
          = Raise e) as Hapi by reflexivity.
  assert (service_reply w empty_state "sk-test"
            (BloodworkApp.request "Hb 135 g/l") = Raise e)
    as Happ by reflexivity.
  split; [exact Hapi |]. split; [exact Happ |].
  destruct (copies_agree_up_to_prompt_rest_and_error_handling "sk-test"
              "report.pdf" "Hb 135 g/l" w empty_state e Hapi Happ)
    as (_ & _ & _ & Hraise & Hreturn).
  split; [exact Hraise | exact Hreturn].
Defined.

(** ** The missing credential *)

(** C7, counterexample: no key in the environment and none typed;
    [main] of [bloodwork_app.py] raises nothing and returns. *)
Lemma front_end_without_key_does_not_fail :
  let w := sample_world two_pages service_answer in
  environ w !! "OPENAI_API_KEY" = None
  /\ text_input_value w EmptyString = EmptyString
  /\ (BloodworkApp.main w empty_state).1 = Ret tt.
Proof. repeat split; reflexivity. Qed.

(** C7, as the code has it: without a key in the environment (and, at the
    Streamlit page, none typed), no document is written, opened, read or
    processed.  [process_pdf] of [api.py] reads the environment and then
    raises [HTTPException(500)] with its own detail text.  [main] of
    [bloodwork_app.py] raises nothing: it shows the key input and a
    warning, leaves the disk, the documents and the model service alone,
    and returns. *)
Theorem no_credential_no_document_io (w : World) (s : State) (file : Upload) :
  truthy_opt (environ w !! "OPENAI_API_KEY") = false ->
  truthy (text_input_value w
            (default EmptyString (session_state s !! "openai_api_key")))
  = false ->
  Api.process_pdf file w s
  = (Raise (HTTPException 500 "OPENAI_API_KEY not set in environment"),
     log (EvEnvironGet "OPENAI_API_KEY") s)
  /\ exists s' : State,
       BloodworkApp.main w s = (Ret tt, s')
       /\ fs s' = fs s /\ open_docs s' = open_docs s
       /\ llm_calls s' = llm_calls s
       /\ Forall (fun ev => document_io ev = false) (events_since s s')
       /\ events_since s s'
          = [EvSt StSetPageConfig;
             EvSt (StTitle
                     "🩸 Extracting Bloodwork Results for Consultation Notes");
             EvSt StMarkdown;
             EvEnvironGet "OPENAI_API_KEY";
             EvSt (StTextInput "OpenAI API Key"
                     (default EmptyString
                        (session_state s !! "openai_api_key")));
             EvSt (StWarning
                     "⚠️ Please provide your OpenAI API key to continue.");
             EvSt StSidebar;
             EvSt StMarkdown].
Proof.
  intros Henv Htyped. split.
  - unfold Api.process_pdf, bind, os_environ_get. by rewrite Henv.
  - match goal with
    | |- context [EvSt StSetPageConfig :: ?rest] =>
        set (page := EvSt StSetPageConfig :: rest)
    end.
    assert (forall s' : State,
              trace s' = trace s ++ page ->
              Forall (fun ev => document_io ev = false) (events_since s s')
              /\ events_since s s' = page) as Hevents.
    { intros s' Htrace. rewrite (events_since_app s s' _ Htrace).
      split; [repeat constructor | reflexivity]. }
    unfold BloodworkApp.main, bind, st, emit, os_environ_get,
      session_contains, session_set, session_get, st_text_input, ret.
    cbn [session_state log]. rewrite Henv. cbn [session_state log].
    destruct (session_state s !! "openai_api_key") as [v|] eqn:Hsession;
      simpl in Htyped.
    + rewrite bool_decide_eq_true_2 by (eexists; reflexivity).
      cbn [negb]. cbv beta iota zeta. cbn [session_state log].
      rewrite Hsession. cbv beta iota zeta. rewrite Htyped.
      cbv beta iota zeta.
      eexists. split; [reflexivity |]. repeat (split; [done |]).
      apply Hevents. simpl. by rewrite <- !app_assoc.
    + rewrite bool_decide_eq_false_2 by (by intros [? ?]).
      cbn [negb]. cbv beta iota zeta. cbn [session_state log set_session].
      rewrite lookup_insert_eq. cbv beta iota zeta. rewrite Htyped.
      cbv beta iota zeta.
      eexists. split; [reflexivity |]. repeat (split; [done |]).
      apply Hevents. simpl. by rewrite <- !app_assoc.
Qed.

Lemma no_credential_no_document_io_witness :
  let w := sample_world two_pages service_answer in
  let file := {| filename := "report.pdf"; content := "%PDF-1.7" |} in
  truthy_opt (environ w !! "OPENAI_API_KEY") = false
  /\ truthy (text_input_value w
               (default EmptyString
                  (session_state empty_state !! "openai_api_key")))
     = false
  /\ Api.process_pdf file w empty_state
     = (Raise (HTTPException 500 "OPENAI_API_KEY not set in environment"),
        log (EvEnvironGet "OPENAI_API_KEY") empty_state)
  /\ exists s' : State,
       BloodworkApp.main w empty_state = (Ret tt, s')
       /\ fs s' = fs empty_state
       /\ Forall (fun ev => document_io ev = false)
            (events_since empty_state s').
Proof.
  intros w file.
  assert (truthy_opt (environ w !! "OPENAI_API_KEY") = false)
    as Henv by reflexivity.
  assert (truthy (text_input_value w
                    (default EmptyString
                       (session_state empty_state !! "openai_api_key")))
          = false) as Htyped by reflexivity.
  split; [exact Henv |]. split; [exact Htyped |].
  destruct (no_credential_no_document_io w empty_state file Henv Htyped)
    as (Hapi & s' & Hmain & Hfs & _ & _ & Hio & _).
  split; [exact Hapi |]. exists s'. by repeat split.
Defined.

(* ===================================================================== *)
(** * Further properties of the code *)
(* ===================================================================== *)

(** ** Extraction and the pipeline *)

Lemma pages_text_failing (ts : list string) (e : PyExc)
    (rest : list (outcome string)) :
  forall acc : string,
    pages_text acc ((Ret <$> ts) ++ Raise e :: rest) = Raise e.
Proof.
  induction ts as [|t ts IH]; intros acc; [reflexivity |].
  change (pages_text acc ((Ret <$> t :: ts) ++ Raise e :: rest))
    with (pages_text (acc +:+ t) ((Ret <$> ts) ++ Raise e :: rest)).
  apply IH.
Qed.

Lemma pages_read_failing (ts : list string) (e : PyExc)
    (rest : list (outcome string)) :
  pages_read ((Ret <$> ts) ++ Raise e :: rest) = S (length ts).
Proof.
  induction ts as [|t ts IH]; [reflexivity |].
  change (pages_read ((Ret <$> t :: ts) ++ Raise e :: rest))
    with (S (pages_read ((Ret <$> ts) ++ Raise e :: rest))).
  by rewrite IH.
Qed.

(** The first page whose [get_text] raises ends the extraction: its error
    comes out, the text gathered so far is dropped, the pages after it are
    never asked, and the handle stays open. *)
Theorem first_failing_page_aborts_extraction (f : Surface)
    (key path : string) (w : World) (s : State) (bytes : string)
    (ts : list string) (e : PyExc) (rest : list (outcome string)) :
  fs s !! path = Some bytes ->
  pdf_parse w bytes = Ret ((Ret <$> ts) ++ Raise e :: rest) ->
  exists s' : State,
    extract_text f key path w s = (Raise e, s')
    /\ events_since s s'
       = EvFitzOpen path :: page_reads (next_doc s) 0 (S (length ts))
    /\ next_doc s ∈ open_docs s'.
Proof.
  intros Hfile Hparse. rewrite extract_text_run, Hfile, Hparse. cbv zeta.
  rewrite pages_text_failing, pages_read_failing.
  eexists. split; [reflexivity |]. split.
  - apply events_since_app. simpl. by rewrite <- app_assoc.
  - simpl. apply elem_of_union_l. by apply elem_of_singleton.
Qed.

Lemma first_failing_page_aborts_extraction_witness :
  let w := sample_world broken_second_page service_answer in
  fs disk_with_report !! "report.pdf" = Some "%PDF-1.7"
  /\ pdf_parse w "%PDF-1.7"
     = Ret ((Ret <$> ["Hb 135 g/l"])
            ++ Raise (Exc "RuntimeError" "cannot load page") :: [])
  /\ exists s' : State,
       extract_text ServiceEndpoint "sk-test" "report.pdf" w disk_with_report
       = (Raise (Exc "RuntimeError" "cannot load page"), s')
       /\ events_since disk_with_report s'
          = [EvFitzOpen "report.pdf"; EvGetText 0 0; EvGetText 0 1].
Proof.
  intros w. split; [reflexivity |]. split; [reflexivity |].
  destruct (first_failing_page_aborts_extraction ServiceEndpoint "sk-test"
              "report.pdf" w disk_with_report "%PDF-1.7" ["Hb 135 g/l"]
              (Exc "RuntimeError" "cannot load page") [] eq_refl eq_refl)
    as (s' & Hrun & Hevents & _).
  exists s'. split; [exact Hrun | exact Hevents].
Defined.

(** Extraction never touches the Streamlit session. *)
Lemma extract_text_session (f : Surface) (key path : string) (w : World)
    (s : State) :
  session_state (extract_text f key path w s).2 = session_state s.
Proof.
  rewrite extract_text_run.
  destruct (fs s !! path) as [bytes|]; [|done].
  destruct (pdf_parse w bytes) as [texts|e]; [|done].
  cbv zeta. by destruct (pages_text EmptyString texts).
Qed.

(** [process_lab_report] of either copy calls the model service once if
    the text was extracted and not at all otherwise: there is no retry,
    whatever the service answers. *)
Theorem process_calls_model_once (f : Surface) (key path : string)
    (w : World) (s : State) :
  llm_calls (process f key path w s).2
  = if returned (extract_text f key path w s).1
    then S (llm_calls s) else llm_calls s.
Proof.
  rewrite process_run.
  destruct (extract_text f key path w s) as [r1 s1] eqn:Hextract.
  destruct (extract_text_frame f key path w s r1 s1 Hextract)
    as (Hcalls & _).
  destruct r1 as [text|e]; simpl; [|done].
  rewrite format_results_run.
  destruct f; destruct (service_reply w s1 key _); simpl; by rewrite Hcalls.
Qed.

Lemma process_frame (f : Surface)
    (key path : string) (w : World) (s : State) (r : outcome PyDict)
    (s' : State) :
  process f key path w s = (r, s') ->
  fs s' = fs s
  /\ session_state s' = session_state s
  /\ (returned r = true ->
      forall h : nat, h ∈ open_docs s' -> h ∈ open_docs s).
Proof.
  rewrite process_run.
  pose proof (extract_text_session f key path w s) as Hsession.
  destruct (extract_text f key path w s) as [r1 s1] eqn:Hextract.
  destruct (extract_text_frame f key path w s r1 s1 Hextract)
    as (_ & Hfs & _).
  simpl in Hsession.
  destruct r1 as [text|e].
  - assert (forall h : nat, h ∈ open_docs s1 -> h ∈ open_docs s) as Hopen.
    { revert Hextract. rewrite extract_text_run.
      destruct (fs s !! path) as [bytes|]; [|done].
      destruct (pdf_parse w bytes) as [texts|e]; [|done].
      cbv zeta. destruct (pages_text EmptyString texts); [|done].
      intros [= _ <-]. simpl.
      intros h [[Hin|Hin]%elem_of_union Hout]%elem_of_difference; done. }
    rewrite format_results_run.
    destruct f; destruct (service_reply w s1 key _);
      intros [= <- <-]; simpl; repeat split; try done; intros _; exact Hopen.
  - intros [= <- <-]. by repeat split.
Qed.

(** [process_lab_report] of either copy leaves the disk and the session
    as they were; when it returns a record, no document is left open. *)
Theorem process_keeps_disk_and_closes_document (f : Surface)
    (key path : string) (w : World) (s : State) (r : outcome PyDict)
    (s' : State) :
  process f key path w s = (r, s') ->
  fs s' = fs s
  /\ session_state s' = session_state s
  /\ (returned r = true ->
      forall h : nat, h ∈ open_docs s' -> h ∈ open_docs s).
Proof. apply process_frame. Qed.

Lemma process_keeps_disk_and_closes_document_witness :
  let w := sample_world two_pages service_answer in
  let run := process ServiceEndpoint "sk-test" "report.pdf" w
               disk_with_report in
  run = (run.1, run.2)
  /\ fs run.2 = fs disk_with_report
  /\ forall h : nat, h ∈ open_docs run.2 -> h ∈ open_docs disk_with_report.
Proof.
  intros w run.
  assert (run = (run.1, run.2)) as Hrun by reflexivity.
  split; [exact Hrun |].
  destruct (process_keeps_disk_and_closes_document ServiceEndpoint "sk-test"
              "report.pdf" w disk_with_report run.1 run.2 Hrun)
    as (Hfs & _ & Hopen).
  split; [exact Hfs | exact (Hopen eq_refl)].
Defined.

(** ** The handler [process_pdf] of [api.py] *)

(** The clean-up [if os.path.exists(p): os.remove(p)] never raises. *)
Lemma remove_if_there_run (path : string) (w : World) (s : State) :
  (there <- os_path_exists path ;;
   if there then os_remove path else ret tt) w s
  = (Ret tt,
     match fs s !! path with
     | Some _ =>
         set_fs (delete path)
           (log (EvFileRemove path) (log (EvPathExists path) s))
     | None => log (EvPathExists path) s
     end).
Proof.
  unfold bind, os_path_exists, os_remove. cbn [fs log].
  destruct (fs s !! path) as [bytes|] eqn:Hfile.
  - rewrite bool_decide_eq_true_2 by (eexists; reflexivity).
    cbv beta iota. cbn [fs log]. by rewrite Hfile.
  - rewrite bool_decide_eq_false_2 by (by intros [? ?]). done.
Qed.












(** ** The Streamlit script [main] of [bloodwork_app.py] *)

(** [main] in terms of its two blocks. *)
Lemma main_blocks :
  BloodworkApp.main =
  (st StSetPageConfig ;;
  st (StTitle "🩸 Extracting Bloodwork Results for Consultation Notes") ;;
  st StMarkdown ;;
  env_api_key <- os_environ_get "OPENAI_API_KEY" ;;
  api_key <- key_block env_api_key ;;
  (if truthy api_key then
     (if negb (truthy_opt env_api_key)
      then session_set "openai_api_key" api_key
      else ret tt) ;;
     uploaded <- st_file_uploader "Upload Lab Results PDF" ;;
     match uploaded with
     | Some uploaded_file =>
         let temp := "temp_" +:+ filename uploaded_file in
         write_file temp (content uploaded_file) ;;
         pressed <- st_button "Extract Results" ;;
         if pressed then
           extract_click api_key temp
         else ret tt
     | None => ret tt
     end
   else
     st (StWarning "⚠️ Please provide your OpenAI API key to continue.")) ;;
  st StSidebar ;;
  st StMarkdown).
Proof. reflexivity. Qed.

(** The key block returns the key in use; it shows one widget and may
    create the session entry, and touches nothing else. *)
Lemma key_block_run (w : World) (s : State) :
  key_block (environ w !! "OPENAI_API_KEY") w s
  = (Ret (key_in_use w s),
     if truthy_opt (environ w !! "OPENAI_API_KEY") then
       log (EvSt (StSuccess "✅ Using API key from environment variable")) s
     else
       log (EvSt (StTextInput "OpenAI API Key"
                    (default EmptyString
                       (session_state s !! "openai_api_key"))))
         (match session_state s !! "openai_api_key" with
          | Some _ => s
          | None => set_session (insert "openai_api_key" EmptyString) s
          end)).
Proof.
  unfold key_block, key_in_use.
  destruct (truthy_opt (environ w !! "OPENAI_API_KEY")); [reflexivity |].
  unfold bind, session_contains, session_set, session_get, st_text_input,
    ret.
  destruct (session_state s !! "openai_api_key") as [v|] eqn:Hsession.
  - rewrite bool_decide_eq_true_2 by (eexists; reflexivity).
    cbn [negb]. cbv beta iota. by rewrite Hsession.
  - rewrite bool_decide_eq_false_2 by (by intros [? ?]).
    cbn [negb]. cbv beta iota. cbn [session_state set_session].
    by rewrite lookup_insert_eq.
Qed.

(** A press on the button, with the upload on disk at [temp]: the record
    is shown and the file removed, or the error is shown and the file
    removed; nothing is raised. *)
Lemma extract_click_run (api_key temp : string) (w : World) (s : State) :
  is_Some (fs s !! temp) ->
  extract_click api_key temp w s =
    let run :=
      process InteractiveFrontEnd api_key temp w
        (log (EvSt (StSpinner "Processing lab results...")) s) in
    (Ret tt,
     set_fs (delete temp)
       (logs
          (match run.1 with
           | Ret d =>
               [EvSt (StSuccess "✅ Results extracted successfully!");
                EvSt (StSubheader " Formatted Results for Consultation Notes");
                EvSt (StTextArea "Copy this text to your consultation notes:"
                        (default EmptyString
                           (dict_get "formatted_results" d)));
                EvSt (StExpander " View Raw Extracted Text");
                EvSt (StTextArea "Raw text from PDF:"
                        (default EmptyString (dict_get "raw_text" d)));
                EvFileRemove temp]
           | Raise e =>
               [EvSt (StError ("❌ Error processing file: " +:+ str e));
                EvPathExists temp;
                EvFileRemove temp]
           end)
          run.2)).
Proof.
  intros [bytes Hfile]. cbv zeta.
  unfold extract_click, bind at 1, st, emit, try_except.
  change (BloodworkApp.process_lab_report (BloodworkApp.init api_key))
    with (process InteractiveFrontEnd api_key).
  set (s0 := log (EvSt (StSpinner "Processing lab results...")) s).
  unfold bind at 1.
  destruct (process InteractiveFrontEnd api_key temp w s0) as [r s1]
    eqn:Hprocess.
  destruct (process_frame InteractiveFrontEnd api_key temp w s0 r s1 Hprocess)
    as (Hfs & _).
  assert (fs s1 !! temp = Some bytes) as Hthere by (by rewrite Hfs).
  destruct r as [d|e].
  - rewrite process_run in Hprocess.
    destruct (extract_text InteractiveFrontEnd api_key temp w s0)
      as [[text|e] s2]; [|done].
    destruct (format_results InteractiveFrontEnd api_key text w s2)
      as [[t|e] s3]; [|done].
    injection Hprocess as <- <-.
    unfold bind, dict_item, os_remove, ret. cbn [dict_get String.eqb].
    simpl. simpl in Hthere. rewrite Hthere.
    unfold set_fs, logs. simpl. by rewrite <- !app_assoc.
  - cbn [fst snd].
    unfold bind at 1. cbv beta iota.
    rewrite remove_if_there_run. cbn [fs log]. rewrite Hthere.
    unfold set_fs, logs. simpl. by rewrite <- !app_assoc.
Qed.

(** The outcome of [main] and the state it leaves, path by path. *)
Lemma main_run (w : World) (s : State) :
  BloodworkApp.main w s =
    let env := environ w !! "OPENAI_API_KEY" in
    let key := key_in_use w s in
    let s2 :=
      (key_block env w
         (log (EvEnvironGet "OPENAI_API_KEY")
            (log (EvSt StMarkdown)
               (log (EvSt (StTitle
                             "🩸 Extracting Bloodwork Results for Consultation Notes"))
                  (log (EvSt StSetPageConfig) s))))).2 in
    let finish (body : State) : outcome unit * State :=
      (Ret tt, log (EvSt StMarkdown) (log (EvSt StSidebar) body)) in
    if truthy key then
      let s4 :=
        log (EvSt (StFileUploader "Upload Lab Results PDF"))
          (if negb (truthy_opt env)
           then set_session (insert "openai_api_key" key) s2
           else s2) in
      match uploaded_file w with
      | Some u =>
          let temp := "temp_" +:+ filename u in
          match write_error w temp (content u) with
          | Some e => (Raise e, log (EvFileWrite temp) s4)
          | None =>
              let s5 :=
                log (EvSt (StButton "Extract Results"))
                  (set_fs (insert temp (content u))
                     (log (EvFileWrite temp) s4)) in
              finish (if button_pressed w
                      then (extract_click key temp w s5).2 else s5)
          end
      | None => finish s4
      end
    else
      finish
        (log (EvSt (StWarning
                      "⚠️ Please provide your OpenAI API key to continue."))
           s2).
Proof.
  rewrite main_blocks. cbv zeta.
  unfold bind, st, emit, os_environ_get, session_set, st_file_uploader,
    write_file, st_button, ret.
  rewrite key_block_run. cbv beta iota. cbn [fst snd].
  change (key_in_use w (log _ _)) with (key_in_use w s).
  destruct (truthy (key_in_use w s)); [| reflexivity].
  destruct (negb (truthy_opt (environ w !! "OPENAI_API_KEY")));
    cbv beta iota;
    (destruct (uploaded_file w) as [u|]; [| reflexivity]);
    (destruct (write_error w _ (content u)) as [e|]; [reflexivity |]);
    (destruct (button_pressed w); [| reflexivity]);
    rewrite extract_click_run
      by (eexists; cbn [fs log set_fs]; apply lookup_insert_eq);
    reflexivity.
Qed.


Lemma key_block_session (w : World) (s : State) :
  session_state (key_block (environ w !! "OPENAI_API_KEY") w s).2
  = if truthy_opt (environ w !! "OPENAI_API_KEY") then session_state s
    else match session_state s !! "openai_api_key" with
         | Some _ => session_state s
         | None => <["openai_api_key" := EmptyString]> (session_state s)
         end.
Proof.
  rewrite key_block_run. cbn [snd].
  destruct (truthy_opt (environ w !! "OPENAI_API_KEY")); [done |].
  by destruct (session_state s !! "openai_api_key").
Qed.




(** The key in the environment is not copied into the session; a key
    typed at the page is. *)
Theorem main_keeps_typed_key_in_session (w : World) (s : State) :
  session_state (BloodworkApp.main w s).2
  = if truthy_opt (environ w !! "OPENAI_API_KEY") then session_state s
    else if truthy (key_in_use w s)
         then <["openai_api_key" := key_in_use w s]> (session_state s)
         else match session_state s !! "openai_api_key" with
              | Some _ => session_state s
              | None => <["openai_api_key" := EmptyString]> (session_state s)
              end.
Proof.
  rewrite main_run. cbv zeta.
  set (s1 := log (EvEnvironGet "OPENAI_API_KEY") _).
  pose proof (key_block_session w s1) as Hsession.
  change (session_state s1) with (session_state s) in Hsession.
  set (s2 := (key_block (environ w !! "OPENAI_API_KEY") w s1).2) in *.
  assert (forall (temp : string) (s5 : State),
            is_Some (fs s5 !! temp) ->
            session_state (extract_click (key_in_use w s) temp w s5).2
            = session_state s5) as Hclick.
  { intros temp s5 Hthere. rewrite extract_click_run by done.
    cbv zeta. cbn [snd session_state set_fs logs].
    destruct (process_frame InteractiveFrontEnd (key_in_use w s) temp w
                (log (EvSt (StSpinner "Processing lab results...")) s5)
                (process InteractiveFrontEnd (key_in_use w s) temp w
                   (log (EvSt (StSpinner "Processing lab results...")) s5)).1
                (process InteractiveFrontEnd (key_in_use w s) temp w
                   (log (EvSt (StSpinner "Processing lab results...")) s5)).2)
      as (_ & Hkeep & _); [by destruct (process _ _ _ _ _) | exact Hkeep]. }
  clearbody s2. clear s1.
  assert (forall s4 : State,
            session_state
              (match uploaded_file w with
               | Some u =>
                   match write_error w ("temp_" +:+ filename u) (content u)
                   with
                   | Some e =>
                       (Raise e, log (EvFileWrite ("temp_" +:+ filename u)) s4)
                   | None =>
                       (Ret tt,
                        log (EvSt StMarkdown)
                          (log (EvSt StSidebar)
                             (if button_pressed w
                              then (extract_click (key_in_use w s)
                                      ("temp_" +:+ filename u) w
                                      (log (EvSt (StButton "Extract Results"))
                                         (set_fs
                                            (insert ("temp_" +:+ filename u)
                                               (content u))
                                            (log
                                               (EvFileWrite
                                                  ("temp_" +:+ filename u))
                                               s4)))).2
                              else log (EvSt (StButton "Extract Results"))
                                     (set_fs
                                        (insert ("temp_" +:+ filename u)
                                           (content u))
                                        (log
                                           (EvFileWrite
                                              ("temp_" +:+ filename u))
                                           s4)))))
                   end
               | None =>
                   (Ret tt, log (EvSt StMarkdown) (log (EvSt StSidebar) s4))
               end).2
            = session_state s4) as Hupload.
  { intros s4. destruct (uploaded_file w) as [u|]; [| done].
    destruct (write_error w _ (content u)) as [e|]; [done |].
    destruct (button_pressed w); [| done].
    cbn [snd session_state log]. rewrite Hclick; [done |].
    eexists. cbn [fs log set_fs]. apply lookup_insert_eq. }
  destruct (truthy_opt (environ w !! "OPENAI_API_KEY")) eqn:Henv;
    cbn [negb];
    (destruct (truthy (key_in_use w s)); [| exact Hsession]);
    rewrite Hupload; cbn [session_state log set_session]; rewrite Hsession.
  - done.
  - destruct (session_state s !! "openai_api_key");
      [done | apply insert_insert_eq].
Qed.















(** ** Prompts of different reports *)

Lemma append_cancel_l (a x y : string) : a +:+ x = a +:+ y -> x = y.
Proof.
  induction a as [|c a IH]; [done |].
  rewrite !append_cons. intros [= H]. by apply IH.
Qed.

Lemma append_cancel_r (t : string) :
  forall x y : string, x +:+ t = y +:+ t -> x = y.
Proof.
  induction x as [|c x IH]; intros y H.
  - destruct y as [|d y]; [done |].
    apply (f_equal String.length) in H.
    rewrite !length_append in H. simpl in H. lia.
  - destruct y as [|d y].
    + apply (f_equal String.length) in H.
      rewrite !length_append in H. simpl in H. lia.
    + rewrite !append_cons in H. injection H as -> H.
      f_equal. by apply IH.
Qed.

(** The user message determines the raw text: in either copy two
    different raw texts never give the same user message. *)
Theorem user_message_determines_raw_text (f : Surface) (R1 R2 : string) :
  user_message f R1 = user_message f R2 -> R1 = R2.
Proof.
  rewrite !user_message_split. intros H.
  apply append_cancel_l in H. by apply append_cancel_r in H.
Qed.

Lemma user_message_determines_raw_text_witness :
  user_message ServiceEndpoint "Hb 135 g/l"
  = user_message ServiceEndpoint ("Hb 135" +:+ " g/l")
  /\ "Hb 135 g/l" = "Hb 135" +:+ " g/l".
Proof.
  split; [reflexivity |].
  apply (user_message_determines_raw_text ServiceEndpoint). reflexivity.
Defined.

(** ** Responses of the model service *)

(** Of a response only the first choice is used, stripped of surrounding
    white space.  A response without choices fails with [IndexError] and
    a first choice without content with [AttributeError]; [api.py] raises
    these, [bloodwork_app.py] returns them as text. *)
Theorem formatter_reads_first_choice (f : Surface) (key text : string)
    (w : World) (s : State) (choices : list (option string)) :
  chat_create w (llm_calls s) key (formatting_request f text) = Ret choices ->
  (format_results f key text w s).1
  = match choices with
    | Some c :: _ => Ret (strip c)
    | [] => on_model_error f (Exc "IndexError" "list index out of range")
    | None :: _ =>
        on_model_error f
          (Exc "AttributeError" "'NoneType' object has no attribute 'strip'")
    end.
Proof.
  intros Hanswer. rewrite format_results_run. unfold service_reply.
  destruct f; cbv beta iota; rewrite Hanswer;
    by destruct choices as [|[c|] others].
Qed.

Lemma formatter_reads_first_choice_witness :
  let w := sample_world two_pages (Ret []) in
  chat_create w (llm_calls empty_state) "sk-test"
    (formatting_request InteractiveFrontEnd "Hb 135 g/l") = Ret []
  /\ (format_results InteractiveFrontEnd "sk-test" "Hb 135 g/l" w
        empty_state).1
     = Ret "Error processing results: list index out of range".
Proof.
  intros w. split; [reflexivity |].
  exact (formatter_reads_first_choice InteractiveFrontEnd "sk-test"
           "Hb 135 g/l" w empty_state [] eq_refl).
Defined.
